(** * Schema change of a tablet: be/src/olap/schema_change.h

    A shallow embedding of the conversion strategies declared in
    [schema_change.h] (class [BlockChanger], the [SchemaChange] family and
    [SchemaChangeJob]) together with the properties of row accounting,
    strategy selection and single-flight admission. *)

From Stdlib Require Import ZArith Lia Bool List String.
From stdpp Require Import base gmap sets.
Import ListNotations.

Local Open Scope Z_scope.

(** ** Status values *)

(** Modelled from the spec: [common/status.h] is not among the sources.  The
    header only builds statuses ([Status::OK()], [Status::NotSupported(..)],
    [Status::Error<ErrorCode::ALTER_STATUS_ERR>(..)]) and forwards the ones
    of its collaborators through [RETURN_IF_ERROR]; the error taxonomy names
    a concurrency conflict as well.  Every other code is [OTHER_ERROR]. *)
Inductive ErrorCode : Type :=
  | ALTER_STATUS_ERR
  | NOT_SUPPORTED
  | CONCURRENCY_CONFLICT
  | OTHER_ERROR (code : Z).

Inductive Status : Type :=
  | OK
  | Error (code : ErrorCode) (msg : string).

Definition ok (st : Status) : bool :=
  match st with OK => true | Error _ _ => false end.

Definition is_error (c : ErrorCode) (st : Status) : Prop :=
  exists msg, st = Error c msg.

Definition NotSupported (msg : string) : Status := Error NOT_SUPPORTED msg.

(** Modelled from the spec: the macro [RETURN_IF_ERROR(stmt)] of
    [common/status.h]: a status that is not OK is returned to the caller
    unchanged, otherwise the function goes on. *)
Definition RETURN_IF_ERROR {S : Type}
    (r : Status * S) (k : S -> Status * S) : Status * S :=
  match fst r with
  | OK => k (snd r)
  | Error c m => (Error c m, snd r)
  end.

(** ** Unsigned 64-bit counters *)

(** [2^64] *)
Definition UINT64_MOD : Z := 18446744073709551616.

(** [uint64_t] arithmetic is arithmetic modulo [2^64]. *)
Definition wrap64 (z : Z) : Z := z mod UINT64_MOD.

Definition is_uint64 (z : Z) : Prop := 0 <= z < UINT64_MOD.

(** ** BlockChanger *)

Section BlockChanger.
(** [TExpr] is a thrift type the header only holds a shared pointer to. *)
Context {TExpr : Type}.

Inductive AlterTabletType : Type := SCHEMA_CHANGE | ROLLUP | MIGRATION.

(** The members the inline functions touch; a null [shared_ptr] is [None]. *)
Record BlockChanger : Type := {
  _where_expr : option TExpr;
  _type : AlterTabletType;
  _fe_compatible_version : Z
}.

Definition set_where_expr (where_expr : option TExpr) (c : BlockChanger)
    : BlockChanger :=
  {| _where_expr := where_expr;
     _type := _type c;
     _fe_compatible_version := _fe_compatible_version c |}.

Definition set_type (t : AlterTabletType) (c : BlockChanger) : BlockChanger :=
  {| _where_expr := _where_expr c;
     _type := t;
     _fe_compatible_version := _fe_compatible_version c |}.

Definition set_compatible_version (version : Z) (c : BlockChanger)
    : BlockChanger :=
  {| _where_expr := _where_expr c;
     _type := _type c;
     _fe_compatible_version := version |}.

(** [bool has_where() const { return _where_expr != nullptr; }] *)
Definition has_where (c : BlockChanger) : bool :=
  match _where_expr c with
  | Some _ => true
  | None => false
  end.
End BlockChanger.

Arguments BlockChanger : clear implicits.

(** ** Rowsets, readers and writers

    Only what [schema_change.h] asks of them: the source rowset's [empty()]
    flag and [num_rows()], the reader's [filtered_rows()], the writer's
    [num_rows()] and [num_rows_filtered()].  Two ghost fields record what
    the collaborators were asked to do: the blocks pulled from a reader and
    the rowsets a writer took over by linking. *)

Module Rowset.
Record t : Type := { empty : bool; num_rows : Z }.
End Rowset.

Module RowsetReader.
Record t : Type := {
  rowset : Rowset.t;
  filtered_rows : Z;
  blocks_read : nat
}.
End RowsetReader.

Module RowsetWriter.
Record t : Type := {
  num_rows : Z;
  num_rows_filtered : Z;
  linked : list Rowset.t
}.
End RowsetWriter.

(** ** The SchemaChange family *)

(** The two private counters of [class SchemaChange] (both [uint64_t],
    value-initialised to zero). *)
Record Counters : Type := { _filtered_rows : Z; _merged_rows : Z }.

Definition fresh_counters : Counters :=
  {| _filtered_rows := 0; _merged_rows := 0 |}.

(** What one call of [process] works on: the reader and writer it is handed
    and the object's own counters. *)
Record Env : Type := {
  rowset_reader : RowsetReader.t;
  rowset_writer : RowsetWriter.t;
  self : Counters
}.

Definition with_writer (w : RowsetWriter.t) (e : Env) : Env :=
  {| rowset_reader := rowset_reader e; rowset_writer := w; self := self e |}.

Definition with_self (c : Counters) (e : Env) : Env :=
  {| rowset_reader := rowset_reader e;
     rowset_writer := rowset_writer e;
     self := c |}.

Definition filtered_rows (e : Env) : Z := _filtered_rows (self e).
Definition merged_rows (e : Env) : Z := _merged_rows (self e).

(** [void _add_filtered_rows(uint64_t n) { _filtered_rows += n; }] *)
Definition _add_filtered_rows (n : Z) (e : Env) : Env :=
  with_self {| _filtered_rows := wrap64 (_filtered_rows (self e) + n);
               _merged_rows := _merged_rows (self e) |} e.

(** [void _add_merged_rows(uint64_t n) { _merged_rows += n; }] *)
Definition _add_merged_rows (n : Z) (e : Env) : Env :=
  with_self {| _filtered_rows := _filtered_rows (self e);
               _merged_rows := wrap64 (_merged_rows (self e) + n) |} e.

(** The virtual functions a strategy may override. *)
Module Strategy.
Record t : Type := {
  _inner_process : Env -> Status * Env;
  _check_row_nums : Env -> bool
}.
End Strategy.

(** The calls [process] makes to its collaborators and to its own virtual
    functions; a run carries the list of those made so far. *)
Inductive Call : Type := CallFlush | CallInnerProcess | CallCheckRowNums.

Definition Run : Type := (Env * list Call)%type.

Definition status_of (r : Status * Run) : Status := fst r.
Definition env_of (r : Status * Run) : Env := fst (snd r).
Definition calls_of (r : Status * Run) : list Call := snd (snd r).

(** Left and right side of the comparison of [_check_row_nums].  One operand
    of the sum is a [uint64_t] member, so both sides are compared as
    [uint64_t] values. *)
Definition row_nums_lhs (e : Env) : Z :=
  wrap64 (Rowset.num_rows (RowsetReader.rowset (rowset_reader e))
          - RowsetReader.filtered_rows (rowset_reader e)).

Definition row_nums_rhs (e : Env) : Z :=
  wrap64 (wrap64 (wrap64 (RowsetWriter.num_rows (rowset_writer e)
                          + RowsetWriter.num_rows_filtered (rowset_writer e))
                  + _merged_rows (self e))
          + _filtered_rows (self e)).

Module SchemaChange.
(** [SchemaChange::_inner_process]: the default of the base class. *)
Definition _inner_process (e : Env) : Status * Env :=
  (NotSupported "inner process unsupported.", e).

(** [SchemaChange::_check_row_nums]: [false] on a mismatch (after a
    warning is logged), [true] otherwise. *)
Definition _check_row_nums (e : Env) : bool :=
  if negb (row_nums_lhs e =? row_nums_rhs e) then false else true.

(** The base class as it is, nothing overridden. *)
Definition base : Strategy.t :=
  {| Strategy._inner_process := _inner_process;
     Strategy._check_row_nums := _check_row_nums |}.

Definition source_is_empty (e : Env) : bool :=
  Rowset.empty (RowsetReader.rowset (rowset_reader e))
  || (Rowset.num_rows (RowsetReader.rowset (rowset_reader e)) =? 0).

Definition reset_counters (e : Env) : Env := with_self fresh_counters e.

Section Process.
(** [RowsetWriter::flush] is pure virtual: whatever the writer at hand
    does. *)
Variable flush : RowsetWriter.t -> Status * RowsetWriter.t.

Definition call_flush (r : Run) : Status * Run :=
  let f := flush (rowset_writer (fst r)) in
  (fst f, (with_writer (snd f) (fst r), snd r ++ [CallFlush])).

Definition call_inner_process (vt : Strategy.t) (r : Run) : Status * Run :=
  let i := Strategy._inner_process vt (fst r) in
  (fst i, (snd i, snd r ++ [CallInnerProcess])).

Definition call_check_row_nums (vt : Strategy.t) (r : Run) : bool * Run :=
  (Strategy._check_row_nums vt (fst r),
   (fst r, snd r ++ [CallCheckRowNums])).

(** [SchemaChange::process], with the virtual calls dispatched through
    [vt]. *)
Definition process (vt : Strategy.t) (e : Env) : Status * Run :=
  if source_is_empty e then
    RETURN_IF_ERROR (call_flush (e, []))
      (fun r => (OK, r))
  else
    let e0 := reset_counters e in
    RETURN_IF_ERROR (call_inner_process vt (e0, []))
      (fun r1 =>
         let c := call_check_row_nums vt r1 in
         if negb (fst c) then
           (Error ALTER_STATUS_ERR "SchemaChange check row nums failed",
            snd c)
         else
           (OK, snd c)).
End Process.
End SchemaChange.


(** [class LinkedSchemaChange] overrides [process] only; both protected
    virtual functions stay those of the base class. *)
Module LinkedSchemaChange.
Definition vtable : Strategy.t := SchemaChange.base.

(** Modelled from the spec: [LinkedSchemaChange::process] is declared in the
    header and defined in [schema_change.cpp], which is not among the
    sources.  "Register the existing rowset's storage artifacts under the
    new tablet without rewriting any data [...].  No row is read or
    transformed": the writer takes over the source rowset as it is, the
    reader is not asked for a block and no virtual function is called. *)
Definition link_rowset (rs : Rowset.t) (w : RowsetWriter.t) : RowsetWriter.t :=
  {| RowsetWriter.num_rows :=
       wrap64 (RowsetWriter.num_rows w + Rowset.num_rows rs);
     RowsetWriter.num_rows_filtered := RowsetWriter.num_rows_filtered w;
     RowsetWriter.linked := RowsetWriter.linked w ++ [rs] |}.

Definition process (e : Env) : Status * Run :=
  (OK,
   (with_writer
      (link_rowset (RowsetReader.rowset (rowset_reader e)) (rowset_writer e)) e,
    [])).
End LinkedSchemaChange.

(** [class VSchemaChangeDirectly]. *)
Module VSchemaChangeDirectly.
Section Directly.
Context {TExpr : Type}.
Variable _changer : BlockChanger TExpr.
(** The override of [_inner_process] is defined in [schema_change.cpp]. *)
Variable inner_process : Env -> Status * Env.

Definition _check_row_nums (e : Env) : bool :=
  has_where _changer || SchemaChange._check_row_nums e.

Definition vtable : Strategy.t :=
  {| Strategy._inner_process := inner_process;
     Strategy._check_row_nums := _check_row_nums |}.
End Directly.
End VSchemaChangeDirectly.

(** [class VBaseSchemaChangeWithSorting]. *)
Module VBaseSchemaChangeWithSorting.
Section Sorting.
Context {TExpr : Type}.
Variable _changer : BlockChanger TExpr.
Variable _memory_limitation : Z.
(** The override of [_inner_process] is defined in [schema_change.cpp]. *)
Variable inner_process : Env -> Status * Env.

Definition _check_row_nums (e : Env) : bool :=
  has_where _changer || SchemaChange._check_row_nums e.

Definition vtable : Strategy.t :=
  {| Strategy._inner_process := inner_process;
     Strategy._check_row_nums := _check_row_nums |}.
End Sorting.
End VBaseSchemaChangeWithSorting.

(** [class VLocalSchemaChangeWithSorting final]: its own [_inner_process],
    the row check of [VBaseSchemaChangeWithSorting]. *)
Module VLocalSchemaChangeWithSorting.
Section LocalSorting.
Context {TExpr : Type}.
Variable _changer : BlockChanger TExpr.
Variable _memory_limitation : Z.
Variable inner_process : Env -> Status * Env.

Definition vtable : Strategy.t :=
  {| Strategy._inner_process := inner_process;
     Strategy._check_row_nums :=
       VBaseSchemaChangeWithSorting._check_row_nums _changer |}.
End LocalSorting.
End VLocalSchemaChangeWithSorting.

(** ** SchemaChangeJob *)

Module SchemaChangeJob.

(** *** Choice of the strategy *)

Section Procedure.
Context {TExpr StorageEngine : Type}.
(** [config::memory_limitation_per_thread_for_schema_change_bytes] *)
Variable memory_limitation_per_thread_for_schema_change_bytes : Z.
Variable _local_storage_engine : StorageEngine.

(** The dynamic type of the object [_get_sc_procedure] returns, with the
    arguments of its constructor. *)
Inductive Procedure : Type :=
  | VLocalSchemaChangeWithSorting
      (changer : BlockChanger TExpr) (memory_limitation : Z)
      (local_storage_engine : StorageEngine)
  | VSchemaChangeDirectly (changer : BlockChanger TExpr)
  | LinkedSchemaChange.

Definition _get_sc_procedure
    (changer : BlockChanger TExpr) (sc_sorting sc_directly : bool)
    : Procedure :=
  if sc_sorting then
    VLocalSchemaChangeWithSorting changer
      memory_limitation_per_thread_for_schema_change_bytes
      _local_storage_engine
  else if sc_directly then
    VSchemaChangeDirectly changer
  else
    LinkedSchemaChange.
End Procedure.

(** *** Admission, the stages of a job and release *)

Section Job.
(** What the tablet registry shows of a tablet; opaque here. *)
Context {TabletState : Type}.

Record TAlterTabletReqV2 : Type := {
  base_tablet_id : Z;
  new_tablet_id : Z
}.

(** The members of the job the requests share: the in-converting set (an
    [std::unordered_set<int64_t>] behind [_mutex]) and the tablet states
    other components can see. *)
Record State : Type := {
  _tablet_ids_in_converting : gset Z;
  tablets : gmap Z TabletState
}.

(** Modelled from the spec: [tablet_in_converting] is declared in the header
    and defined in [schema_change.cpp]; "a read-only query" of
    membership. *)
Definition tablet_in_converting (tablet_id : Z) (s : State) : bool :=
  bool_decide (tablet_id ∈ _tablet_ids_in_converting s).

(** Modelled from the spec: step 1 of the job, "compute the target tablet id;
    atomically check-and-insert into the tablet-in-converting set [...].
    If already present, fail with a concurrency-conflict error". *)
Definition target_tablet_id (request : TAlterTabletReqV2) : Z :=
  new_tablet_id request.

Definition check_and_insert (tablet_id : Z) (s : State) : Status * State :=
  if tablet_in_converting tablet_id s then
    (Error CONCURRENCY_CONFLICT "tablet is in converting", s)
  else
    (OK, {| _tablet_ids_in_converting :=
              {[tablet_id]} ∪ _tablet_ids_in_converting s;
            tablets := tablets s |}).

(** Modelled from the spec: step 7, "remove the tablet id from the
    in-converting set regardless of outcome". *)
Definition release (tablet_id : Z) (s : State) : State :=
  {| _tablet_ids_in_converting := _tablet_ids_in_converting s ∖ {[tablet_id]};
     tablets := tablets s |}.

(** What the collaborators of one job answer at each stage (steps 2 to 6),
    and the tablet state the job would publish. *)
Record Work : Type := {
  planning : Status;
  version_selection : Status;
  conversion : Status;
  delete_bitmap : Status;
  validation : Status;
  new_state : TabletState
}.

Definition publish (tablet_id : Z) (t : TabletState) (s : State) : State :=
  {| _tablet_ids_in_converting := _tablet_ids_in_converting s;
     tablets := <[tablet_id := t]> (tablets s) |}.

(** Modelled from the spec: [_do_process_alter_tablet], defined in
    [schema_change.cpp].  The stages run in sequence, the first failure ends
    the job ("every stage returns a result that is fatal-or-success") and
    the publish of step 6 is "the single visibility boundary". *)
Definition _do_process_alter_tablet
    (request : TAlterTabletReqV2) (w : Work) (s : State) : Status * State :=
  RETURN_IF_ERROR (planning w, s) (fun s =>
  RETURN_IF_ERROR (version_selection w, s) (fun s =>
  RETURN_IF_ERROR (conversion w, s) (fun s =>
  RETURN_IF_ERROR (delete_bitmap w, s) (fun s =>
  RETURN_IF_ERROR (validation w, s) (fun s =>
  (OK, publish (new_tablet_id request) (new_state w) s)))))).

(** The part of a job that runs after admission: the stages, then the
    release whatever they returned. *)
Definition finish (request : TAlterTabletReqV2) (w : Work) (s : State)
    : Status * State :=
  let r := _do_process_alter_tablet request w s in
  (fst r, release (target_tablet_id request) (snd r)).

(** Modelled from the spec: [process_alter_tablet], defined in
    [schema_change.cpp]: admission, the stages, release. *)
Definition process_alter_tablet
    (request : TAlterTabletReqV2) (w : Work) (s : State) : Status * State :=
  RETURN_IF_ERROR (check_and_insert (target_tablet_id request) s) (finish request w).

(** *** Jobs in flight

    Admission and release are the only accesses to the shared set and each
    is atomic (one critical section of [_mutex]), so the runs of concurrent
    jobs are the interleavings of these steps.  [in_flight] lists the jobs
    that were accepted and have not finished. *)
Record Sys : Type := {
  shared : State;
  in_flight : list TAlterTabletReqV2
}.

Inductive Event : Type :=
  | Accepted (request : TAlterTabletReqV2)
  | Rejected (request : TAlterTabletReqV2) (st : Status)
  | Finished (request : TAlterTabletReqV2) (w : Work) (st : Status).

Definition in_flight_ids (sys : Sys) : list Z :=
  map target_tablet_id (in_flight sys).

Definition drop_job (tablet_id : Z) (l : list TAlterTabletReqV2)
    : list TAlterTabletReqV2 :=
  List.filter (fun r => negb (target_tablet_id r =? tablet_id)) l.

Inductive step : Sys -> Event -> Sys -> Prop :=
  | step_accepted sys request s' :
      check_and_insert (target_tablet_id request) (shared sys) = (OK, s') ->
      step sys (Accepted request)
        {| shared := s'; in_flight := request :: in_flight sys |}
  | step_rejected sys request c m s' :
      check_and_insert (target_tablet_id request) (shared sys) = (Error c m, s') ->
      step sys (Rejected request (Error c m))
        {| shared := s'; in_flight := in_flight sys |}
  | step_finished sys request w :
      In request (in_flight sys) ->
      step sys
        (Finished request w (fst (finish request w (shared sys))))
        {| shared := snd (finish request w (shared sys));
           in_flight := drop_job (target_tablet_id request) (in_flight sys) |}.

Definition init (ts : gmap Z TabletState) : Sys :=
  {| shared := {| _tablet_ids_in_converting := ∅; tablets := ts |};
     in_flight := [] |}.

Inductive reachable : Sys -> Prop :=
  | reachable_init ts : reachable (init ts)
  | reachable_step sys ev sys' :
      reachable sys -> step sys ev sys' -> reachable sys'.

(** The set and the jobs in flight agree, and no tablet id has two jobs. *)
Definition consistent (sys : Sys) : Prop :=
  List.NoDup (in_flight_ids sys)
  /\ forall id : Z,
       id ∈ _tablet_ids_in_converting (shared sys) <-> In id (in_flight_ids sys).
End Job.

Arguments State : clear implicits.
Arguments Work : clear implicits.
Arguments Sys : clear implicits.
Arguments Event : clear implicits.
End SchemaChangeJob.

(** A request and the answers of its collaborators, for the examples. *)
Definition sample_request : SchemaChangeJob.TAlterTabletReqV2 :=
  {| SchemaChangeJob.base_tablet_id := 10; SchemaChangeJob.new_tablet_id := 11 |}.

Definition sample_work (conversion_status : Status) : SchemaChangeJob.Work nat :=
  {| SchemaChangeJob.planning := OK;
     SchemaChangeJob.version_selection := OK;
     SchemaChangeJob.conversion := conversion_status;
     SchemaChangeJob.delete_bitmap := OK;
     SchemaChangeJob.validation := OK;
     SchemaChangeJob.new_state := 1%nat |}.

Definition sample_running : SchemaChangeJob.Sys nat :=
  {| SchemaChangeJob.shared :=
       {| SchemaChangeJob._tablet_ids_in_converting := {[11]} ∪ ∅;
          SchemaChangeJob.tablets := ∅ |};
     SchemaChangeJob.in_flight := [sample_request] |}.

(** ** Strategies that run the row check

    The strategies whose [_check_row_nums] comes down to the comparison of
    the base class: the base class itself and the direct and sort-based
    strategies when the changer has no [where] expression. *)
Inductive without_where : Strategy.t -> Prop :=
  | without_where_base : without_where SchemaChange.base
  | without_where_directly
      {TExpr} (changer : BlockChanger TExpr) inner :
      has_where changer = false ->
      without_where (VSchemaChangeDirectly.vtable changer inner)
  | without_where_sorting
      {TExpr} (changer : BlockChanger TExpr) inner :
      has_where changer = false ->
      without_where (VBaseSchemaChangeWithSorting.vtable changer inner)
  | without_where_local_sorting
      {TExpr} (changer : BlockChanger TExpr) inner :
      has_where changer = false ->
      without_where (VLocalSchemaChangeWithSorting.vtable changer inner).

(** The strategies that hold a changer, for a given changer. *)
Inductive with_changer {TExpr} (changer : BlockChanger TExpr)
    : Strategy.t -> Prop :=
  | with_changer_directly inner :
      with_changer changer (VSchemaChangeDirectly.vtable changer inner)
  | with_changer_sorting inner :
      with_changer changer (VBaseSchemaChangeWithSorting.vtable changer inner)
  | with_changer_local_sorting inner :
      with_changer changer (VLocalSchemaChangeWithSorting.vtable changer inner).

(** ** Sample values used by the examples *)

Definition sample_env (rows reader_filtered written writer_filtered : Z)
    (c : Counters) : Env :=
  {| rowset_reader :=
       {| RowsetReader.rowset :=
            {| Rowset.empty := false; Rowset.num_rows := rows |};
          RowsetReader.filtered_rows := reader_filtered;
          RowsetReader.blocks_read := 0 |};
     rowset_writer :=
       {| RowsetWriter.num_rows := written;
          RowsetWriter.num_rows_filtered := writer_filtered;
          RowsetWriter.linked := [] |};
     self := c |}.

Definition flush_ok (w : RowsetWriter.t) : Status * RowsetWriter.t := (OK, w).

Definition flush_io_error (w : RowsetWriter.t) : Status * RowsetWriter.t :=
  (Error (OTHER_ERROR 1) "flush failed", w).

(** An inner process that writes every source row and reports [f] rows
    dropped by the changer and [m] rows merged. *)
Definition counting_inner (f m : Z) (e : Env) : Status * Env :=
  (OK, _add_merged_rows m (_add_filtered_rows f e)).

Definition fresh_writer : RowsetWriter.t :=
  {| RowsetWriter.num_rows := 0;
     RowsetWriter.num_rows_filtered := 0;
     RowsetWriter.linked := [] |}.

(** A changer as the constructor leaves it, and one with a [where]
    expression set. *)
Definition plain_changer : BlockChanger unit :=
  {| _where_expr := None; _type := SCHEMA_CHANGE; _fe_compatible_version := -1 |}.

Definition filtering_changer : BlockChanger unit :=
  set_where_expr (Some tt) plain_changer.

Definition failing_inner (e : Env) : Status * Env :=
  (Error (OTHER_ERROR 2) "read failed", e).

(** ** Sequences of calls

    The setters of [BlockChanger] and the two protected adders of
    [SchemaChange] are the only ways to change the members they guard; a
    caller's use of them is a list of calls, run in order. *)

Inductive Setter {TExpr : Type} : Type :=
  | SetWhereExpr (where_expr : option TExpr)
  | SetType (t : AlterTabletType)
  | SetCompatibleVersion (version : Z).

Arguments Setter : clear implicits.

Definition apply_setter {TExpr} (call : Setter TExpr) (c : BlockChanger TExpr)
    : BlockChanger TExpr :=
  match call with
  | SetWhereExpr where_expr => set_where_expr where_expr c
  | SetType t => set_type t c
  | SetCompatibleVersion version => set_compatible_version version c
  end.

Definition apply_setters {TExpr} (calls : list (Setter TExpr))
    (c : BlockChanger TExpr) : BlockChanger TExpr :=
  fold_left (fun c call => apply_setter call c) calls c.

(** The argument of the last [set_where_expr] among [calls], [init] when
    there is none. *)
Fixpoint last_where_expr {TExpr} (calls : list (Setter TExpr))
    (init : option TExpr) : option TExpr :=
  match calls with
  | [] => init
  | SetWhereExpr where_expr :: calls' => last_where_expr calls' where_expr
  | _ :: calls' => last_where_expr calls' init
  end.

Inductive CounterOp : Type :=
  | AddFiltered (n : Z)
  | AddMerged (n : Z).

Definition run_op (op : CounterOp) (e : Env) : Env :=
  match op with
  | AddFiltered n => _add_filtered_rows n e
  | AddMerged n => _add_merged_rows n e
  end.

Definition run_ops (ops : list CounterOp) (e : Env) : Env :=
  fold_left (fun e op => run_op op e) ops e.

Fixpoint filtered_total (ops : list CounterOp) : Z :=
  match ops with
  | [] => 0
  | AddFiltered n :: ops' => n + filtered_total ops'
  | AddMerged _ :: ops' => filtered_total ops'
  end.

Fixpoint merged_total (ops : list CounterOp) : Z :=
  match ops with
  | [] => 0
  | AddFiltered _ :: ops' => merged_total ops'
  | AddMerged n :: ops' => n + merged_total ops'
  end.

Definition counters_in_range (e : Env) : Prop :=
  is_uint64 (_filtered_rows (self e)) /\ is_uint64 (_merged_rows (self e)).

(** An override of [_inner_process] as a subclass can write it: the
    counters are private to [SchemaChange], so the override works on reader
    and writer ([io]) and reaches the counters through the two adders only
    ([ops]). *)
Definition inner_with_ops
    (io : RowsetReader.t * RowsetWriter.t ->
          Status * (RowsetReader.t * RowsetWriter.t))
    (ops : list CounterOp) (e : Env) : Status * Env :=
  let r := io (rowset_reader e, rowset_writer e) in
  (fst r,
   run_ops ops
     {| rowset_reader := fst (snd r);
        rowset_writer := snd (snd r);
        self := self e |}).

(** A strategy that keeps the row check of the base class. *)
Definition with_base_check (inner : Env -> Status * Env) : Strategy.t :=
  {| Strategy._inner_process := inner;
     Strategy._check_row_nums := SchemaChange._check_row_nums |}.

(** The virtual functions behind the object [_get_sc_procedure] returns,
    given the two overrides of [_inner_process] that [schema_change.cpp]
    defines. *)
Definition strategy_of_procedure {TExpr StorageEngine}
    (sorting_inner directly_inner : BlockChanger TExpr -> Env -> Status * Env)
    (p : @SchemaChangeJob.Procedure TExpr StorageEngine) : Strategy.t :=
  match p with
  | SchemaChangeJob.VLocalSchemaChangeWithSorting changer _ _ =>
      VLocalSchemaChangeWithSorting.vtable changer (sorting_inner changer)
  | SchemaChangeJob.VSchemaChangeDirectly changer =>
      VSchemaChangeDirectly.vtable changer (directly_inner changer)
  | SchemaChangeJob.LinkedSchemaChange => LinkedSchemaChange.vtable
  end.

(** Reads a block of [n] rows, of which the reader drops [d], and writes
    the rest. *)
Definition sample_io (n d : Z) (rw : RowsetReader.t * RowsetWriter.t)
    : Status * (RowsetReader.t * RowsetWriter.t) :=
  (OK,
   ({| RowsetReader.rowset := RowsetReader.rowset (fst rw);
       RowsetReader.filtered_rows := RowsetReader.filtered_rows (fst rw) + d;
       RowsetReader.blocks_read := S (RowsetReader.blocks_read (fst rw)) |},
    {| RowsetWriter.num_rows := RowsetWriter.num_rows (snd rw) + (n - d);
       RowsetWriter.num_rows_filtered := RowsetWriter.num_rows_filtered (snd rw);
       RowsetWriter.linked := RowsetWriter.linked (snd rw) |})).

(** * Properties *)

(** ** Arithmetic of the counters *)

Lemma UINT64_MOD_pos : 0 < UINT64_MOD.
Proof. reflexivity. Qed.

Lemma wrap64_range z : is_uint64 (wrap64 z).
Proof. unfold is_uint64, wrap64. apply Z.mod_pos_bound, UINT64_MOD_pos. Qed.

Lemma wrap64_small z : is_uint64 z -> wrap64 z = z.
Proof. unfold is_uint64, wrap64. intros H. now apply Z.mod_small. Qed.

Lemma UINT64_MOD_pow2 : UINT64_MOD = 2 ^ 64.
Proof. reflexivity. Qed.

Lemma wrap64_borrow z : - UINT64_MOD <= z < 0 -> wrap64 z = z + UINT64_MOD.
Proof.
  intros H. unfold wrap64. symmetry.
  apply (Z.mod_unique_pos z UINT64_MOD (-1) (z + UINT64_MOD)); lia.
Qed.

Lemma row_nums_lhs_range e : is_uint64 (row_nums_lhs e).
Proof. apply wrap64_range. Qed.

Lemma row_nums_rhs_range e : is_uint64 (row_nums_rhs e).
Proof. apply wrap64_range. Qed.

(** The nested reductions of the sum collapse into one. *)
Lemma row_nums_rhs_sum e :
  row_nums_rhs e =
  wrap64 (RowsetWriter.num_rows (rowset_writer e)
          + RowsetWriter.num_rows_filtered (rowset_writer e)
          + _merged_rows (self e) + _filtered_rows (self e)).
Proof.
  unfold row_nums_rhs, wrap64.
  rewrite Zplus_mod_idemp_l, <- Z.add_assoc, Zplus_mod_idemp_l, Z.add_assoc.
  reflexivity.
Qed.

(** Without wrap-around both sides are the plain integers of the spec. *)
Lemma row_nums_exact e :
  0 <= RowsetReader.filtered_rows (rowset_reader e)
    <= Rowset.num_rows (RowsetReader.rowset (rowset_reader e)) ->
  Rowset.num_rows (RowsetReader.rowset (rowset_reader e)) < UINT64_MOD ->
  is_uint64 (RowsetWriter.num_rows (rowset_writer e)
             + RowsetWriter.num_rows_filtered (rowset_writer e)
             + _merged_rows (self e) + _filtered_rows (self e)) ->
  row_nums_lhs e =
    Rowset.num_rows (RowsetReader.rowset (rowset_reader e))
    - RowsetReader.filtered_rows (rowset_reader e)
  /\ row_nums_rhs e =
    RowsetWriter.num_rows (rowset_writer e)
    + RowsetWriter.num_rows_filtered (rowset_writer e)
    + _merged_rows (self e) + _filtered_rows (self e).
Proof.
  intros HF HR HS. split.
  - unfold row_nums_lhs. apply wrap64_small. unfold is_uint64. lia.
  - rewrite row_nums_rhs_sum. now apply wrap64_small.
Qed.

Lemma check_row_nums_true e :
  SchemaChange._check_row_nums e = true <-> row_nums_lhs e = row_nums_rhs e.
Proof.
  unfold SchemaChange._check_row_nums.
  destruct (Z.eqb_spec (row_nums_lhs e) (row_nums_rhs e)); simpl; split;
    congruence.
Qed.

Lemma check_row_nums_false e :
  SchemaChange._check_row_nums e = false <-> row_nums_lhs e <> row_nums_rhs e.
Proof.
  rewrite <- check_row_nums_true.
  destruct (SchemaChange._check_row_nums e); split; congruence.
Qed.

(** ** The shape of [process] *)

Lemma process_empty flush vt e :
  SchemaChange.source_is_empty e = true ->
  SchemaChange.process flush vt e =
    (fst (flush (rowset_writer e)),
     (with_writer (snd (flush (rowset_writer e))) e, [CallFlush])).
Proof.
  intros He. unfold SchemaChange.process. rewrite He.
  unfold RETURN_IF_ERROR, SchemaChange.call_flush. simpl.
  destruct (fst (flush (rowset_writer e))); reflexivity.
Qed.

Lemma process_inner_failed flush vt e c m :
  SchemaChange.source_is_empty e = false ->
  fst (Strategy._inner_process vt (SchemaChange.reset_counters e)) = Error c m ->
  SchemaChange.process flush vt e =
    (Error c m,
     (snd (Strategy._inner_process vt (SchemaChange.reset_counters e)),
      [CallInnerProcess])).
Proof.
  intros He Hi. unfold SchemaChange.process. rewrite He.
  unfold RETURN_IF_ERROR, SchemaChange.call_inner_process. simpl.
  rewrite Hi. reflexivity.
Qed.

Lemma process_inner_ok flush vt e :
  SchemaChange.source_is_empty e = false ->
  fst (Strategy._inner_process vt (SchemaChange.reset_counters e)) = OK ->
  SchemaChange.process flush vt e =
    let e1 := snd (Strategy._inner_process vt (SchemaChange.reset_counters e)) in
    (if Strategy._check_row_nums vt e1 then OK
     else Error ALTER_STATUS_ERR "SchemaChange check row nums failed",
     (e1, [CallInnerProcess; CallCheckRowNums])).
Proof.
  intros He Hi. unfold SchemaChange.process. rewrite He.
  unfold RETURN_IF_ERROR, SchemaChange.call_inner_process,
    SchemaChange.call_check_row_nums. simpl.
  rewrite Hi.
  destruct (Strategy._check_row_nums vt _); reflexivity.
Qed.

Lemma process_env_nonempty flush vt e :
  SchemaChange.source_is_empty e = false ->
  env_of (SchemaChange.process flush vt e) =
    snd (Strategy._inner_process vt (SchemaChange.reset_counters e)).
Proof.
  intros He.
  destruct (fst (Strategy._inner_process vt (SchemaChange.reset_counters e)))
    as [|c m] eqn:Hi.
  - rewrite (process_inner_ok flush vt e He Hi). reflexivity.
  - rewrite (process_inner_failed flush vt e c m He Hi). reflexivity.
Qed.

Lemma without_where_check vt e :
  without_where vt ->
  Strategy._check_row_nums vt e = SchemaChange._check_row_nums e.
Proof.
  intros H. destruct H as [|T c i Hw|T c i Hw|T c i Hw]; simpl; try reflexivity;
    unfold VSchemaChangeDirectly._check_row_nums,
      VBaseSchemaChangeWithSorting._check_row_nums; now rewrite Hw.
Qed.

(** ** Row conservation *)


(** The same on the direct strategy when reading fails half-way. *)
Example directly_inner_error_propagates :
  let vt := VSchemaChangeDirectly.vtable plain_changer failing_inner in
  let r := SchemaChange.process flush_ok vt (sample_env 5 0 0 0 fresh_counters) in
  row_nums_lhs (env_of r) <> row_nums_rhs (env_of r)
  /\ status_of r = Error (OTHER_ERROR 2) "read failed".
Proof. split; [vm_compute; discriminate | reflexivity]. Qed.



(** ** The waiver under a [where] filter *)

(** C3.  With a [where] expression set, [_check_row_nums] of the direct and
    of the sort-based strategy is [true] whatever the counts are, and
    [process] on a non-empty source returns what the inner process
    returned: it never fails on the accounting. *)
Theorem where_waives_row_check
    {TExpr} (changer : BlockChanger TExpr) flush vt e :
  has_where changer = true ->
  with_changer changer vt ->
  VSchemaChangeDirectly._check_row_nums changer e = true
  /\ VBaseSchemaChangeWithSorting._check_row_nums changer e = true
  /\ (forall e', Strategy._check_row_nums vt e' = true)
  /\ (SchemaChange.source_is_empty e = false ->
      status_of (SchemaChange.process flush vt e) =
        fst (Strategy._inner_process vt (SchemaChange.reset_counters e))).
Proof.
  intros Hw Hvt.
  assert (Hc : forall e', Strategy._check_row_nums vt e' = true).
  { intros e'. destruct Hvt; simpl;
      unfold VSchemaChangeDirectly._check_row_nums,
        VBaseSchemaChangeWithSorting._check_row_nums; now rewrite Hw. }
  split; [unfold VSchemaChangeDirectly._check_row_nums; now rewrite Hw|].
  split; [unfold VBaseSchemaChangeWithSorting._check_row_nums; now rewrite Hw|].
  split; [exact Hc|].
  intros He.
  destruct (fst (Strategy._inner_process vt (SchemaChange.reset_counters e)))
    as [|c m] eqn:Hi.
  - rewrite (process_inner_ok flush vt e He Hi). cbv zeta.
    rewrite Hc. reflexivity.
  - rewrite (process_inner_failed flush vt e c m He Hi). reflexivity.
Qed.

Lemma where_waives_row_check_witness :
  let vt := VSchemaChangeDirectly.vtable filtering_changer (counting_inner 0 0) in
  let e := sample_env 1000 0 600 0 fresh_counters in
  has_where filtering_changer = true
  /\ SchemaChange.source_is_empty e = false
  /\ SchemaChange._check_row_nums e = false
  /\ Strategy._check_row_nums vt e = true
  /\ status_of (SchemaChange.process flush_ok vt e) = OK.
Proof.
  cbv zeta.
  pose proof (where_waives_row_check filtering_changer flush_ok
                (VSchemaChangeDirectly.vtable filtering_changer (counting_inner 0 0))
                (sample_env 1000 0 600 0 fresh_counters) eq_refl
                (with_changer_directly filtering_changer (counting_inner 0 0)))
    as (_ & _ & Hc & Hp).
  split; [reflexivity|]. split; [reflexivity|]. split; [reflexivity|].
  split; [apply Hc|]. rewrite (Hp eq_refl). reflexivity.
Defined.

(** ** The empty source *)

(** C4, the claim as stated fails: a source of zero rows and a writer whose
    [flush] fails.  [process] returns the error of the flush, not OK. *)
Lemma process_empty_flush_error :
  let e := sample_env 0 0 0 0 fresh_counters in
  let r := SchemaChange.process flush_io_error SchemaChange.base e in
  SchemaChange.source_is_empty e = true
  /\ status_of r = Error (OTHER_ERROR 1) "flush failed"
  /\ status_of r <> OK
  /\ calls_of r = [CallFlush].
Proof.
  cbv zeta. split; [reflexivity|]. split; [reflexivity|].
  split; [vm_compute; discriminate | reflexivity].
Qed.

(** C4 (amended).  For a source rowset that is empty or has zero rows,
    [process] flushes the writer and returns what the flush returned, hence
    OK when the flush succeeded; the flush is the only call it makes:
    neither [_inner_process] nor [_check_row_nums] is invoked, whatever the
    strategy, and reader and counters are left as they were. *)
Theorem process_empty_source flush vt e :
  SchemaChange.source_is_empty e = true ->
  let r := SchemaChange.process flush vt e in
  let f := flush (rowset_writer e) in
  status_of r = fst f
  /\ (fst f = OK -> status_of r = OK)
  /\ env_of r = with_writer (snd f) e
  /\ calls_of r = [CallFlush]
  /\ ~ In CallInnerProcess (calls_of r)
  /\ ~ In CallCheckRowNums (calls_of r)
  /\ (forall vt', SchemaChange.process flush vt' e = r).
Proof.
  intros He r f. subst r f.
  rewrite (process_empty flush vt e He).
  unfold status_of, env_of, calls_of. simpl.
  repeat split; try tauto.
  - intros [H|[]]. discriminate H.
  - intros [H|[]]. discriminate H.
  - intros vt'. apply process_empty, He.
Qed.

Lemma process_empty_source_witness :
  let e := sample_env 0 0 0 0 fresh_counters in
  let vt := VSchemaChangeDirectly.vtable plain_changer (counting_inner 3 4) in
  SchemaChange.source_is_empty e = true
  /\ status_of (SchemaChange.process flush_ok vt e) = OK
  /\ calls_of (SchemaChange.process flush_ok vt e) = [CallFlush].
Proof.
  cbv zeta.
  pose proof (process_empty_source flush_ok
                (VSchemaChangeDirectly.vtable plain_changer (counting_inner 3 4))
                (sample_env 0 0 0 0 fresh_counters) eq_refl)
    as (_ & Hok & _ & Hcalls & _).
  split; [reflexivity|]. split; [apply Hok; reflexivity | exact Hcalls].
Defined.

(** ** The default inner process *)



(** ** The counters across calls *)

Lemma process_forgets_counters flush vt e c :
  SchemaChange.source_is_empty e = false ->
  SchemaChange.process flush vt (with_self c e) = SchemaChange.process flush vt e.
Proof.
  intros He. unfold SchemaChange.process.
  change (SchemaChange.source_is_empty (with_self c e))
    with (SchemaChange.source_is_empty e).
  rewrite He. reflexivity.
Qed.

(** C9.  On a non-empty source [process] sets both counters to zero before
    the inner process runs, so the outcome does not depend on what the
    counters held before and [filtered_rows()] and [merged_rows()] show the
    counts of this conversion alone; on the short-circuit for an empty
    source the counters are left as they were. *)
Theorem process_counters flush vt e :
  (SchemaChange.source_is_empty e = false ->
     self (SchemaChange.reset_counters e) = fresh_counters
     /\ env_of (SchemaChange.process flush vt e) =
          snd (Strategy._inner_process vt (SchemaChange.reset_counters e))
     /\ (forall c, SchemaChange.process flush vt (with_self c e) =
                   SchemaChange.process flush vt e)
     /\ (forall f m c,
           Strategy._inner_process vt = counting_inner f m ->
           let r := SchemaChange.process flush vt (with_self c e) in
           filtered_rows (env_of r) = wrap64 f
           /\ merged_rows (env_of r) = wrap64 m))
  /\ (SchemaChange.source_is_empty e = true ->
      self (env_of (SchemaChange.process flush vt e)) = self e
      /\ filtered_rows (env_of (SchemaChange.process flush vt e)) =
           filtered_rows e
      /\ merged_rows (env_of (SchemaChange.process flush vt e)) =
           merged_rows e).
Proof.
  split; intros He.
  - split; [reflexivity|]. split; [apply process_env_nonempty, He|].
    split; [intros c; apply process_forgets_counters, He|].
    intros f m c Hvt r. subst r.
    rewrite (process_forgets_counters flush vt e c He).
    rewrite (process_env_nonempty flush vt e He), Hvt.
    split; reflexivity.
  - rewrite (process_empty flush vt e He). repeat split.
Qed.

Lemma process_counters_witness :
  let vt := VSchemaChangeDirectly.vtable plain_changer (counting_inner 2 3) in
  let e1 := sample_env 10 0 5 0 fresh_counters in
  let e2 := with_self (self (env_of (SchemaChange.process flush_ok vt e1))) e1 in
  let e3 := sample_env 0 0 0 0 (self (env_of (SchemaChange.process flush_ok vt e2))) in
  SchemaChange.source_is_empty e1 = false
  /\ SchemaChange.source_is_empty e3 = true
  /\ filtered_rows (env_of (SchemaChange.process flush_ok vt e1)) = 2
  /\ filtered_rows (env_of (SchemaChange.process flush_ok vt e2)) = 2
  /\ merged_rows (env_of (SchemaChange.process flush_ok vt e2)) = 3
  /\ filtered_rows (env_of (SchemaChange.process flush_ok vt e3)) = 2.
Proof.
  cbv zeta.
  set (vt := VSchemaChangeDirectly.vtable plain_changer (counting_inner 2 3)).
  set (e1 := sample_env 10 0 5 0 fresh_counters).
  pose proof (process_counters flush_ok vt e1) as [Hne _].
  destruct (Hne eq_refl) as (_ & _ & _ & Hcount).
  split; [reflexivity|]. split; [reflexivity|].
  split; [reflexivity|].
  split; [apply (Hcount 2 3 _ eq_refl)|].
  split; [apply (Hcount 2 3 _ eq_refl)|].
  set (e3 := sample_env 0 0 0 0 _).
  pose proof (process_counters flush_ok vt e3) as [_ Hem].
  destruct (Hem eq_refl) as (_ & Hf & _).
  rewrite Hf. reflexivity.
Defined.

(** ** Unsigned arithmetic of the row check *)



(** ** Choice of the strategy *)

(** C5.  [_get_sc_procedure] looks at [sc_sorting] first: the sort-based
    strategy whenever it is set, whatever [sc_directly] is, and always with
    the configured memory limit; the direct strategy when only
    [sc_directly] is set; the linked strategy when neither is. *)
Theorem get_sc_procedure_choice
    {TExpr StorageEngine} (memory_limit : Z) (engine : StorageEngine)
    (changer : BlockChanger TExpr) :
  (forall sc_directly,
     SchemaChangeJob._get_sc_procedure memory_limit engine changer
       true sc_directly =
     SchemaChangeJob.VLocalSchemaChangeWithSorting changer memory_limit engine)
  /\ SchemaChangeJob._get_sc_procedure memory_limit engine changer
       false true =
     SchemaChangeJob.VSchemaChangeDirectly changer
  /\ SchemaChangeJob._get_sc_procedure memory_limit engine changer
       false false =
     SchemaChangeJob.LinkedSchemaChange
  /\ (forall sc_sorting sc_directly c m g,
        SchemaChangeJob._get_sc_procedure memory_limit engine changer
          sc_sorting sc_directly =
        SchemaChangeJob.VLocalSchemaChangeWithSorting c m g <->
        sc_sorting = true /\ c = changer /\ m = memory_limit /\ g = engine)
  /\ (forall sc_sorting sc_directly c,
        SchemaChangeJob._get_sc_procedure memory_limit engine changer
          sc_sorting sc_directly =
        SchemaChangeJob.VSchemaChangeDirectly c <->
        sc_sorting = false /\ sc_directly = true /\ c = changer)
  /\ (forall sc_sorting sc_directly,
        SchemaChangeJob._get_sc_procedure memory_limit engine changer
          sc_sorting sc_directly =
        SchemaChangeJob.LinkedSchemaChange <->
        sc_sorting = false /\ sc_directly = false).
Proof.
  split; [reflexivity|]. split; [reflexivity|]. split; [reflexivity|].
  split; [|split].
  - intros [] [] c m g; simpl; split;
      try (intros H; inversion H; subst; tauto);
      try (intros (H & ? & ? & ?); subst; try reflexivity; discriminate H).
  - intros [] [] c; simpl; split;
      try (intros H; inversion H; subst; tauto);
      try (intros (H1 & H2 & ?); subst; try reflexivity;
           try discriminate H1; discriminate H2).
  - intros [] []; simpl; split;
      try (intros H; inversion H; tauto);
      try (intros (H1 & H2); try reflexivity;
           try discriminate H1; discriminate H2).
Qed.

(** ** The linked strategy *)

(** C7.  On a fresh writer and a reader that has filtered nothing,
    [LinkedSchemaChange::process] succeeds with a new rowset of as many
    rows as the source has, made of the source rowset itself; the reader is
    left as it was (no block is read), no virtual function is called, and
    the row check the class inherits holds on the result. *)
Theorem linked_process_keeps_row_count e :
  is_uint64 (Rowset.num_rows (RowsetReader.rowset (rowset_reader e))) ->
  rowset_writer e = fresh_writer ->
  RowsetReader.filtered_rows (rowset_reader e) = 0 ->
  self e = fresh_counters ->
  let r := LinkedSchemaChange.process e in
  status_of r = OK
  /\ RowsetWriter.num_rows (rowset_writer (env_of r)) =
       Rowset.num_rows (RowsetReader.rowset (rowset_reader e))
  /\ RowsetWriter.linked (rowset_writer (env_of r)) =
       [RowsetReader.rowset (rowset_reader e)]
  /\ rowset_reader (env_of r) = rowset_reader e
  /\ RowsetReader.blocks_read (rowset_reader (env_of r)) =
       RowsetReader.blocks_read (rowset_reader e)
  /\ calls_of r = []
  /\ self (env_of r) = self e
  /\ Strategy._check_row_nums LinkedSchemaChange.vtable (env_of r) = true.
Proof.
  intros HR Hw HF Hs r. subst r.
  unfold LinkedSchemaChange.process, status_of, env_of, calls_of. simpl.
  rewrite Hw. simpl.
  assert (Hn : wrap64 (Rowset.num_rows (RowsetReader.rowset (rowset_reader e)))
               = Rowset.num_rows (RowsetReader.rowset (rowset_reader e)))
    by (apply wrap64_small, HR).
  rewrite Z.add_0_l, Hn.
  repeat split; try assumption.
  apply check_row_nums_true.
  unfold row_nums_lhs, row_nums_rhs. simpl.
  rewrite HF, Hs. simpl.
  rewrite Z.sub_0_r, ?Z.add_0_l, !Z.add_0_r, !Hn. reflexivity.
Qed.

Lemma linked_process_keeps_row_count_witness :
  let e := sample_env 1000 0 0 0 fresh_counters in
  is_uint64 1000
  /\ RowsetWriter.num_rows (rowset_writer (env_of (LinkedSchemaChange.process e)))
     = 1000
  /\ rowset_reader (env_of (LinkedSchemaChange.process e)) = rowset_reader e.
Proof.
  cbv zeta.
  assert (H : is_uint64 1000) by (unfold is_uint64, UINT64_MOD; lia).
  pose proof (linked_process_keeps_row_count
                (sample_env 1000 0 0 0 fresh_counters) H eq_refl eq_refl eq_refl)
    as (_ & Hn & _ & Hr & _).
  split; [exact H|]. split; [exact Hn | exact Hr].
Defined.

(** ** Admission and release *)

Section JobFacts.
Import SchemaChangeJob.
Context {TabletState : Type}.
Implicit Type s : State TabletState.
Implicit Type sys : Sys TabletState.
Implicit Type w : Work TabletState.
Implicit Type request : TAlterTabletReqV2.

Lemma tablet_in_converting_true id s :
  tablet_in_converting id s = true <-> id ∈ _tablet_ids_in_converting s.
Proof. unfold tablet_in_converting. apply bool_decide_eq_true. Qed.

Lemma check_and_insert_conflict id s :
  id ∈ _tablet_ids_in_converting s ->
  check_and_insert id s = (Error CONCURRENCY_CONFLICT "tablet is in converting", s).
Proof.
  intros H. unfold check_and_insert.
  apply tablet_in_converting_true in H. now rewrite H.
Qed.

Lemma check_and_insert_fresh id s :
  id ∉ _tablet_ids_in_converting s ->
  check_and_insert id s =
    (OK, {| _tablet_ids_in_converting := {[id]} ∪ _tablet_ids_in_converting s;
            tablets := tablets s |}).
Proof.
  intros H. unfold check_and_insert.
  destruct (tablet_in_converting id s) eqn:E; [|reflexivity].
  apply tablet_in_converting_true in E. contradiction.
Qed.

Lemma check_and_insert_ok_inv id s s' :
  check_and_insert id s = (OK, s') ->
  (id ∉ _tablet_ids_in_converting s)
  /\ _tablet_ids_in_converting s' = {[id]} ∪ _tablet_ids_in_converting s
  /\ tablets s' = tablets s.
Proof.
  unfold check_and_insert. destruct (tablet_in_converting id s) eqn:E; [discriminate|].
  intros H. inversion H; subst; clear H. simpl.
  split; [|split; reflexivity].
  intros Hin. apply tablet_in_converting_true in Hin. congruence.
Qed.

Lemma check_and_insert_error_inv id s c m s' :
  check_and_insert id s = (Error c m, s') ->
  id ∈ _tablet_ids_in_converting s /\ s' = s /\ c = CONCURRENCY_CONFLICT.
Proof.
  unfold check_and_insert. destruct (tablet_in_converting id s) eqn:E; [|discriminate].
  intros H. inversion H; subst. apply tablet_in_converting_true in E. tauto.
Qed.

(** The stages never touch the in-converting set. *)
Lemma do_process_set request w s :
  _tablet_ids_in_converting (snd (_do_process_alter_tablet request w s)) =
  _tablet_ids_in_converting s.
Proof.
  unfold _do_process_alter_tablet, RETURN_IF_ERROR. simpl.
  destruct (planning w), (version_selection w), (conversion w),
    (delete_bitmap w), (validation w); reflexivity.
Qed.

(** A job that failed has published nothing. *)
Lemma do_process_failed request w s :
  ok (fst (_do_process_alter_tablet request w s)) = false ->
  snd (_do_process_alter_tablet request w s) = s.
Proof.
  unfold _do_process_alter_tablet, RETURN_IF_ERROR. simpl.
  destruct (planning w), (version_selection w), (conversion w),
    (delete_bitmap w), (validation w); simpl; intros H;
    try reflexivity; discriminate H.
Qed.

Lemma finish_set request w s :
  _tablet_ids_in_converting (snd (finish request w s)) =
  _tablet_ids_in_converting s ∖ {[target_tablet_id request]}.
Proof. unfold finish. simpl. now rewrite do_process_set. Qed.

Lemma finish_failed_tablets request w s :
  ok (fst (finish request w s)) = false ->
  tablets (snd (finish request w s)) = tablets s.
Proof.
  unfold finish. simpl. intros H. now rewrite (do_process_failed _ _ _ H).
Qed.

Lemma in_drop_job id x (l : list TAlterTabletReqV2) :
  In x (map target_tablet_id (drop_job id l)) <->
  In x (map target_tablet_id l) /\ x <> id.
Proof.
  unfold drop_job. rewrite !in_map_iff. split.
  - intros (r & Hr & Hin). apply filter_In in Hin as [Hin Hne].
    apply negb_true_iff, Z.eqb_neq in Hne. split; [eauto | congruence].
  - intros [(r & Hr & Hin) Hne]. exists r. split; [exact Hr|].
    apply filter_In. split; [exact Hin|].
    apply negb_true_iff, Z.eqb_neq. congruence.
Qed.

Lemma NoDup_drop_job id (l : list TAlterTabletReqV2) :
  List.NoDup (map target_tablet_id l) ->
  List.NoDup (map target_tablet_id (drop_job id l)).
Proof.
  induction l as [|r l IH]; simpl; intros H; [constructor|].
  inversion H as [|? ? Hnotin Hnd]; subst.
  destruct (negb (target_tablet_id r =? id)); simpl; [|now apply IH].
  constructor; [|now apply IH].
  intros Hin. apply in_drop_job in Hin. tauto.
Qed.

Lemma consistent_init ts : consistent (init ts : Sys TabletState).
Proof.
  split; simpl; [constructor|].
  intros id. split; [intros H; now apply not_elem_of_empty in H | intros []].
Qed.

Lemma consistent_step sys ev sys' :
  consistent sys -> step sys ev sys' -> consistent sys'.
Proof.
  intros [Hnd Hset] Hstep.
  destruct Hstep as [sys request s' Ha | sys request c m s' Ha | sys request w Hin].
  - apply check_and_insert_ok_inv in Ha as (Hfresh & Hs' & _).
    split; unfold in_flight_ids in *; simpl.
    + constructor; [|exact Hnd]. intros Hin. apply Hset in Hin. contradiction.
    + intros id. rewrite Hs', elem_of_union, elem_of_singleton, Hset.
      split; intros [H|H]; auto.
  - apply check_and_insert_error_inv in Ha as (_ & -> & _).
    split; assumption.
  - split; unfold in_flight_ids in *; cbn [shared in_flight].
    + now apply NoDup_drop_job.
    + intros id. rewrite finish_set, elem_of_difference, elem_of_singleton.
      rewrite in_drop_job, Hset. reflexivity.
Qed.

Lemma reachable_consistent sys : reachable sys -> consistent sys.
Proof.
  induction 1 as [ts | sys ev sys' _ IH Hstep].
  - apply consistent_init.
  - eapply consistent_step; eassumption.
Qed.
End JobFacts.

Section JobClaims.
Import SchemaChangeJob.
Context {TabletState : Type}.
Implicit Type s : State TabletState.
Implicit Type sys : Sys TabletState.
Implicit Type w : Work TabletState.
Implicit Type request : TAlterTabletReqV2.


(** C6.  A job that ends, with whatever answers of its stages, leaves its
    tablet id out of the in-converting set; when its status is not OK the
    visible tablet states are those from before, the base tablet among
    them.  The same for [process_alter_tablet] as a whole: a request that
    was accepted has released its tablet id when it returns, and a request
    that fails (rejected ones too) publishes nothing. *)
Theorem job_release_unconditional sys request w :
  tablet_in_converting (target_tablet_id request)
    (snd (finish request w (shared sys))) = false
  /\ (ok (fst (finish request w (shared sys))) = false ->
      tablets (snd (finish request w (shared sys))) = tablets (shared sys))
  /\ (forall st sys',
        step sys (Finished request w st) sys' ->
        st = fst (_do_process_alter_tablet request w (shared sys))
        /\ tablet_in_converting (target_tablet_id request) (shared sys') = false
        /\ (ok st = false -> tablets (shared sys') = tablets (shared sys)))
  /\ (forall s,
        tablet_in_converting (target_tablet_id request) s = false ->
        tablet_in_converting (target_tablet_id request)
          (snd (process_alter_tablet request w s)) = false)
  /\ (forall s,
        ok (fst (process_alter_tablet request w s)) = false ->
        tablets (snd (process_alter_tablet request w s)) = tablets s).
Proof.
  assert (Hrel : forall s,
            tablet_in_converting (target_tablet_id request)
              (snd (finish request w s)) = false).
  { intros s. destruct (tablet_in_converting _ _) eqn:E; [|reflexivity].
    apply tablet_in_converting_true in E.
    rewrite finish_set, elem_of_difference, elem_of_singleton in E. tauto. }
  split; [apply Hrel|].
  split; [apply finish_failed_tablets|].
  split; [|split].
  - intros st sys' Hs. inversion Hs; subst; clear Hs. cbn [shared].
    split; [reflexivity|]. split; [apply Hrel | apply finish_failed_tablets].
  - intros s Hfree. unfold process_alter_tablet, RETURN_IF_ERROR.
    rewrite check_and_insert_fresh.
    + cbn [fst snd]. apply Hrel.
    + intros Hin. apply tablet_in_converting_true in Hin. congruence.
  - intros s. unfold process_alter_tablet, RETURN_IF_ERROR, check_and_insert.
    destruct (tablet_in_converting (target_tablet_id request) s);
      cbn [fst snd]; [reflexivity|].
    intros Hfail. now rewrite (finish_failed_tablets _ _ _ Hfail).
Qed.
End JobClaims.

Lemma sample_running_reachable : SchemaChangeJob.reachable sample_running.
Proof.
  apply (SchemaChangeJob.reachable_step (SchemaChangeJob.init ∅)
           (SchemaChangeJob.Accepted sample_request)).
  - constructor.
  - apply (SchemaChangeJob.step_accepted (SchemaChangeJob.init ∅) sample_request).
    reflexivity.
Qed.


Lemma job_release_unconditional_witness :
  let w := sample_work (Error (OTHER_ERROR 3) "conversion failed") in
  let r := SchemaChangeJob.finish sample_request w
             (SchemaChangeJob.shared sample_running) in
  ok (fst r) = false
  /\ SchemaChangeJob.tablet_in_converting 11 (snd r) = false
  /\ SchemaChangeJob.tablets (snd r)
     = SchemaChangeJob.tablets (SchemaChangeJob.shared sample_running).
Proof.
  cbv zeta.
  pose proof (job_release_unconditional sample_running sample_request
                (sample_work (Error (OTHER_ERROR 3) "conversion failed")))
    as (Hrel & Hfail & _).
  split; [reflexivity|]. split; [exact Hrel | apply Hfail; reflexivity].
Defined.

(** * Further properties of the header's inline code *)

(** ** The setters of BlockChanger *)

Lemma apply_setters_cons {TExpr} (call : Setter TExpr) calls c :
  apply_setters (call :: calls) c = apply_setters calls (apply_setter call c).
Proof. reflexivity. Qed.

(** X1.  After any sequence of calls of the three setters, [_where_expr] is
    the argument of the last [set_where_expr] (the initial value when there
    was none) and [has_where()] tells whether that pointer is non-null;
    [set_type] and [set_compatible_version] never change the answer. *)
Theorem setters_last_where_wins {TExpr} (calls : list (Setter TExpr)) c :
  _where_expr (apply_setters calls c) = last_where_expr calls (_where_expr c)
  /\ has_where (apply_setters calls c) =
       match last_where_expr calls (_where_expr c) with
       | Some _ => true
       | None => false
       end
  /\ ((forall where_expr, ~ In (SetWhereExpr where_expr) calls) ->
      has_where (apply_setters calls c) = has_where c).
Proof.
  assert (Hw : forall (calls : list (Setter TExpr)) (c : BlockChanger TExpr),
            _where_expr (apply_setters calls c) =
            last_where_expr calls (_where_expr c)).
  { clear. induction calls as [|call calls IH]; intros c; [reflexivity|].
    rewrite apply_setters_cons, IH. destruct call; reflexivity. }
  assert (Hkeep : forall (calls : list (Setter TExpr)) (init : option TExpr),
            (forall where_expr, ~ In (SetWhereExpr where_expr) calls) ->
            last_where_expr calls init = init).
  { clear. induction calls as [|call calls IH]; intros init Hno; [reflexivity|].
    destruct call as [where_expr| |]; simpl.
    - exfalso. apply (Hno where_expr). left. reflexivity.
    - apply IH. intros x Hx. apply (Hno x). right. exact Hx.
    - apply IH. intros x Hx. apply (Hno x). right. exact Hx. }
  split; [apply Hw|]. split.
  - unfold has_where at 1. now rewrite Hw.
  - intros Hno. unfold has_where. now rewrite Hw, (Hkeep _ _ Hno).
Qed.

Lemma setters_last_where_wins_witness :
  let calls := [SetType ROLLUP; SetCompatibleVersion 5] in
  (forall where_expr : option unit, ~ In (SetWhereExpr where_expr) calls)
  /\ has_where (apply_setters calls filtering_changer) = true
  /\ has_where (apply_setters calls plain_changer) = false.
Proof.
  cbv zeta.
  assert (Hno : forall where_expr : option unit,
            ~ In (SetWhereExpr where_expr)
                [SetType ROLLUP; SetCompatibleVersion 5]).
  { intros x [H|[H|[]]]; discriminate H. }
  split; [exact Hno|]. split.
  - destruct (setters_last_where_wins
                [SetType ROLLUP; SetCompatibleVersion 5] filtering_changer)
      as (_ & _ & H).
    rewrite (H Hno). reflexivity.
  - destruct (setters_last_where_wins
                [SetType ROLLUP; SetCompatibleVersion 5] plain_changer)
      as (_ & _ & H).
    rewrite (H Hno). reflexivity.
Defined.

(** ** The adders *)

Lemma run_ops_cons op ops e : run_ops (op :: ops) e = run_ops ops (run_op op e).
Proof. reflexivity. Qed.

Lemma run_op_io op e :
  rowset_reader (run_op op e) = rowset_reader e
  /\ rowset_writer (run_op op e) = rowset_writer e.
Proof. destruct op; split; reflexivity. Qed.

Lemma run_ops_io ops e :
  rowset_reader (run_ops ops e) = rowset_reader e
  /\ rowset_writer (run_ops ops e) = rowset_writer e.
Proof.
  revert e. induction ops as [|op ops IH]; intros e; [split; reflexivity|].
  rewrite run_ops_cons. destruct (IH (run_op op e)) as [Hr Hw].
  destruct (run_op_io op e) as [Hr' Hw']. split; congruence.
Qed.

Lemma run_op_in_range op e : counters_in_range e -> counters_in_range (run_op op e).
Proof.
  intros [Hf Hm]. destruct op; split; simpl; try assumption; apply wrap64_range.
Qed.

Lemma run_ops_in_range ops e :
  counters_in_range e -> counters_in_range (run_ops ops e).
Proof.
  revert e. induction ops as [|op ops IH]; intros e H; [exact H|].
  rewrite run_ops_cons. apply IH, run_op_in_range, H.
Qed.

Lemma run_ops_totals ops e :
  wrap64 (filtered_rows (run_ops ops e)) =
    wrap64 (filtered_rows e + filtered_total ops)
  /\ wrap64 (merged_rows (run_ops ops e)) =
    wrap64 (merged_rows e + merged_total ops).
Proof.
  revert e. induction ops as [|op ops IH]; intros e.
  - simpl. rewrite !Z.add_0_r. split; reflexivity.
  - rewrite run_ops_cons. destruct (IH (run_op op e)) as [Hf Hm].
    rewrite Hf, Hm.
    destruct op as [n|n];
      cbn [run_op filtered_total merged_total];
      unfold filtered_rows, merged_rows, _add_filtered_rows, _add_merged_rows,
        with_self;
      cbn [self _filtered_rows _merged_rows]; split; try reflexivity;
      unfold wrap64; rewrite Zplus_mod_idemp_l; f_equal; lia.
Qed.

(** X2.  Starting from counters that are [uint64_t] values, any sequence of
    calls of [_add_filtered_rows] and [_add_merged_rows] leaves each counter
    at its old value plus the sum of the amounts added to it, modulo
    [2^64]; the two counters do not disturb each other, and reader and
    writer are not touched. *)
Theorem adders_accumulate ops e :
  counters_in_range e ->
  filtered_rows (run_ops ops e) = wrap64 (filtered_rows e + filtered_total ops)
  /\ merged_rows (run_ops ops e) = wrap64 (merged_rows e + merged_total ops)
  /\ counters_in_range (run_ops ops e)
  /\ rowset_reader (run_ops ops e) = rowset_reader e
  /\ rowset_writer (run_ops ops e) = rowset_writer e.
Proof.
  intros Hr.
  pose proof (run_ops_in_range ops e Hr) as [Hf Hm].
  destruct (run_ops_totals ops e) as [Tf Tm].
  destruct (run_ops_io ops e) as [Ir Iw].
  split; [rewrite <- Tf; symmetry; apply wrap64_small, Hf|].
  split; [rewrite <- Tm; symmetry; apply wrap64_small, Hm|].
  split; [split; assumption|]. split; assumption.
Qed.

Lemma adders_accumulate_witness :
  let e := sample_env 10 0 0 0
             {| _filtered_rows := 18446744073709551615; _merged_rows := 4 |} in
  let ops := [AddFiltered 3; AddMerged 1; AddFiltered 2] in
  counters_in_range e
  /\ filtered_rows (run_ops ops e) = 4
  /\ merged_rows (run_ops ops e) = 5.
Proof.
  cbv zeta.
  assert (H : counters_in_range
                (sample_env 10 0 0 0
                   {| _filtered_rows := 18446744073709551615;
                      _merged_rows := 4 |}))
    by (split; unfold is_uint64, UINT64_MOD; simpl; lia).
  destruct (adders_accumulate [AddFiltered 3; AddMerged 1; AddFiltered 2] _ H)
    as (Hf & Hm & _).
  split; [exact H|]. split; [rewrite Hf | rewrite Hm]; reflexivity.
Defined.

Lemma run_op_swap x y e : run_op x (run_op y e) = run_op y (run_op x e).
Proof.
  destruct x as [a|a], y as [b|b]; try reflexivity;
    unfold run_op, _add_filtered_rows, _add_merged_rows, with_self;
    cbn [self rowset_reader rowset_writer _filtered_rows _merged_rows];
    do 2 f_equal; unfold wrap64; rewrite !Zplus_mod_idemp_l; f_equal; lia.
Qed.

(** X3.  The order in which the adders are called does not matter: two
    sequences with the same calls in any order leave the same state. *)
Theorem adders_order_irrelevant ops ops' e :
  Permutation ops ops' -> run_ops ops e = run_ops ops' e.
Proof.
  intros H. revert e.
  induction H as [|x l l' _ IH|x y l|l l' l'' _ IH1 _ IH2]; intros e.
  - reflexivity.
  - rewrite !run_ops_cons. apply IH.
  - rewrite !run_ops_cons. now rewrite run_op_swap.
  - now rewrite IH1.
Qed.

Lemma adders_order_irrelevant_witness :
  let e := sample_env 10 0 0 0 fresh_counters in
  Permutation [AddFiltered 3; AddMerged 1] [AddMerged 1; AddFiltered 3]
  /\ run_ops [AddFiltered 3; AddMerged 1] e =
     run_ops [AddMerged 1; AddFiltered 3] e.
Proof.
  cbv zeta.
  assert (H : Permutation [AddFiltered 3; AddMerged 1]
                          [AddMerged 1; AddFiltered 3]) by apply perm_swap.
  split; [exact H|].
  apply (adders_order_irrelevant _ _ (sample_env 10 0 0 0 fresh_counters) H).
Defined.

(** ** Outcomes of process *)

(** X4.  [process] succeeds in exactly two ways: the source is empty (flag
    set or zero rows) and the flush succeeded, or the source is not empty,
    the inner process (run on zeroed counters) succeeded and the row check
    accepted the state it left.  Every error it returns is the flush's, the
    inner process's, or its own [ALTER_STATUS_ERR]. *)
Theorem process_outcomes flush vt e :
  let r := SchemaChange.process flush vt e in
  let f := flush (rowset_writer e) in
  let i := Strategy._inner_process vt (SchemaChange.reset_counters e) in
  (status_of r = OK <->
     (SchemaChange.source_is_empty e = true /\ fst f = OK)
     \/ (SchemaChange.source_is_empty e = false /\ fst i = OK
         /\ Strategy._check_row_nums vt (snd i) = true))
  /\ (forall c m,
        status_of r = Error c m <->
          (SchemaChange.source_is_empty e = true /\ fst f = Error c m)
          \/ (SchemaChange.source_is_empty e = false /\ fst i = Error c m)
          \/ (SchemaChange.source_is_empty e = false /\ fst i = OK
              /\ Strategy._check_row_nums vt (snd i) = false
              /\ c = ALTER_STATUS_ERR
              /\ m = "SchemaChange check row nums failed"%string)).
Proof.
  intros r f i. subst r f i.
  destruct (SchemaChange.source_is_empty e) eqn:He.
  - rewrite (process_empty flush vt e He). unfold status_of. cbn [fst].
    split; [|intros c m]; intuition congruence.
  - destruct (fst (Strategy._inner_process vt (SchemaChange.reset_counters e)))
      as [|ci mi] eqn:Hi.
    + rewrite (process_inner_ok flush vt e He Hi). unfold status_of. cbn [fst].
      destruct (Strategy._check_row_nums vt _) eqn:Hc;
        (split; [|intros c m]); intuition congruence.
    + rewrite (process_inner_failed flush vt e ci mi He Hi).
      unfold status_of. cbn [fst].
      split; [|intros c m]; intuition congruence.
Qed.

(** X5.  What [process] calls: the writer's [flush()] exactly when the
    source is empty, [_inner_process] exactly when it is not, and
    [_check_row_nums] exactly when the source is not empty and the inner
    process succeeded; never more than two calls, and never the flush
    together with one of the other two. *)
Theorem process_calls flush vt e :
  let r := SchemaChange.process flush vt e in
  let i := Strategy._inner_process vt (SchemaChange.reset_counters e) in
  (In CallFlush (calls_of r) <-> SchemaChange.source_is_empty e = true)
  /\ (In CallInnerProcess (calls_of r) <->
      SchemaChange.source_is_empty e = false)
  /\ (In CallCheckRowNums (calls_of r) <->
      SchemaChange.source_is_empty e = false /\ fst i = OK)
  /\ (length (calls_of r) <= 2)%nat
  /\ (calls_of r = [CallFlush] \/ calls_of r = [CallInnerProcess]
      \/ calls_of r = [CallInnerProcess; CallCheckRowNums]).
Proof.
  intros r i. subst r i.
  destruct (SchemaChange.source_is_empty e) eqn:He.
  - rewrite (process_empty flush vt e He). unfold calls_of. cbn [snd].
    simpl. intuition (try congruence; try lia).
  - destruct (fst (Strategy._inner_process vt (SchemaChange.reset_counters e)))
      as [|ci mi] eqn:Hi.
    + rewrite (process_inner_ok flush vt e He Hi). unfold calls_of. cbn [snd].
      simpl. intuition (try congruence; try lia).
    + rewrite (process_inner_failed flush vt e ci mi He Hi).
      unfold calls_of. cbn [snd].
      simpl. intuition (try congruence; try lia).
Qed.

(** ** The row check as a congruence *)

(** X6.  [SchemaChange::_check_row_nums] accepts exactly when
    [source_rows - source_filtered_rows] and
    [written_rows + writer_filtered_rows + merged_rows + filtered_rows]
    differ by a multiple of [2^64]; only the total on the right counts, not
    how it is split among its four terms. *)
Theorem check_row_nums_congruence e :
  SchemaChange._check_row_nums e = true <->
  ((Rowset.num_rows (RowsetReader.rowset (rowset_reader e))
    - RowsetReader.filtered_rows (rowset_reader e))
   - (RowsetWriter.num_rows (rowset_writer e)
      + RowsetWriter.num_rows_filtered (rowset_writer e)
      + _merged_rows (self e) + _filtered_rows (self e))) mod 2 ^ 64 = 0.
Proof.
  rewrite check_row_nums_true, row_nums_rhs_sum. unfold row_nums_lhs, wrap64.
  rewrite <- UINT64_MOD_pow2. apply Z.cong_iff_0.
Qed.

(** X7.  When no side of the comparison wraps around (the reader filtered
    no more rows than the source has, and the right-hand total fits in 64
    bits), [_check_row_nums] accepts exactly when the row identity holds
    between the plain integers. *)
Theorem check_row_nums_exact e :
  0 <= RowsetReader.filtered_rows (rowset_reader e)
    <= Rowset.num_rows (RowsetReader.rowset (rowset_reader e)) ->
  Rowset.num_rows (RowsetReader.rowset (rowset_reader e)) < UINT64_MOD ->
  is_uint64 (RowsetWriter.num_rows (rowset_writer e)
             + RowsetWriter.num_rows_filtered (rowset_writer e)
             + _merged_rows (self e) + _filtered_rows (self e)) ->
  (SchemaChange._check_row_nums e = true <->
   Rowset.num_rows (RowsetReader.rowset (rowset_reader e))
   - RowsetReader.filtered_rows (rowset_reader e)
   = RowsetWriter.num_rows (rowset_writer e)
     + RowsetWriter.num_rows_filtered (rowset_writer e)
     + _merged_rows (self e) + _filtered_rows (self e)).
Proof.
  intros HF HR HS.
  destruct (row_nums_exact e HF HR HS) as [Hl Hr].
  rewrite check_row_nums_true, Hl, Hr. reflexivity.
Qed.

Lemma check_row_nums_exact_witness :
  let e := sample_env 1000 100 850 20 {| _filtered_rows := 25; _merged_rows := 5 |} in
  (0 <= 100 <= 1000) /\ 1000 < UINT64_MOD
  /\ SchemaChange._check_row_nums e = true.
Proof.
  cbv zeta.
  assert (H1 : 0 <= 100 <= 1000) by lia.
  assert (H2 : 1000 < UINT64_MOD) by reflexivity.
  split; [exact H1|]. split; [exact H2|].
  apply (check_row_nums_exact
           (sample_env 1000 100 850 20
              {| _filtered_rows := 25; _merged_rows := 5 |}) H1 H2).
  - unfold is_uint64, UINT64_MOD. simpl. lia.
  - reflexivity.
Defined.

(** ** The overrides of the row check *)

(** X8.  With the same inner process, the direct and the sort-based
    strategy behave alike, and a [where] expression only ever loosens
    [process]: state and calls are those of a strategy with the strict base
    check, a success under the strict check stays a success, without a
    [where] expression nothing changes at all, and the only difference
    there can be is OK in place of the strict check's [ALTER_STATUS_ERR]. *)
Theorem where_only_loosens
    {TExpr} (changer : BlockChanger TExpr) inner flush e :
  let strict := SchemaChange.process flush (with_base_check inner) e in
  let direct :=
    SchemaChange.process flush (VSchemaChangeDirectly.vtable changer inner) e in
  let sorting :=
    SchemaChange.process flush
      (VBaseSchemaChangeWithSorting.vtable changer inner) e in
  sorting = direct
  /\ snd direct = snd strict
  /\ (status_of strict = OK -> status_of direct = OK)
  /\ (has_where changer = false -> direct = strict)
  /\ (status_of direct <> status_of strict ->
      has_where changer = true
      /\ status_of direct = OK
      /\ status_of strict =
           Error ALTER_STATUS_ERR "SchemaChange check row nums failed").
Proof.
  intros strict direct sorting. subst strict direct sorting.
  split; [reflexivity|].
  destruct (SchemaChange.source_is_empty e) eqn:He.
  - rewrite !(process_empty flush _ e He). intuition congruence.
  - destruct (fst (inner (SchemaChange.reset_counters e))) as [|c m] eqn:Hi.
    + rewrite (process_inner_ok flush (with_base_check inner) e He Hi).
      rewrite (process_inner_ok flush
                 (VSchemaChangeDirectly.vtable changer inner) e He Hi).
      cbv zeta. unfold status_of. cbn [fst snd Strategy._inner_process
        Strategy._check_row_nums with_base_check VSchemaChangeDirectly.vtable].
      unfold VSchemaChangeDirectly._check_row_nums.
      destruct (has_where changer),
        (SchemaChange._check_row_nums (snd (inner (SchemaChange.reset_counters e))));
        cbn [orb]; intuition congruence.
    + rewrite (process_inner_failed flush (with_base_check inner) e c m He Hi).
      rewrite (process_inner_failed flush
                 (VSchemaChangeDirectly.vtable changer inner) e c m He Hi).
      cbn [Strategy._inner_process with_base_check VSchemaChangeDirectly.vtable].
      intuition congruence.
Qed.

Lemma where_only_loosens_witness :
  let inner := inner_with_ops (sample_io 600 0) [AddFiltered 400] in
  let e := sample_env 1000 0 0 0 fresh_counters in
  has_where plain_changer = false
  /\ SchemaChange.process flush_ok
       (VSchemaChangeDirectly.vtable plain_changer inner) e
     = SchemaChange.process flush_ok (with_base_check inner) e
  /\ status_of (SchemaChange.process flush_ok (with_base_check inner) e) = OK.
Proof.
  cbv zeta.
  destruct (where_only_loosens plain_changer
              (inner_with_ops (sample_io 600 0) [AddFiltered 400]) flush_ok
              (sample_env 1000 0 0 0 fresh_counters)) as (_ & _ & _ & H & _).
  split; [reflexivity|]. split; [apply H; reflexivity | reflexivity].
Defined.

(** ** Counters of one conversion *)

Lemma wrap64_add_wrap_r a b : wrap64 (a + wrap64 b) = wrap64 (a + b).
Proof. unfold wrap64. apply Zplus_mod_idemp_r. Qed.

Lemma fresh_in_range e : counters_in_range (SchemaChange.reset_counters e).
Proof. split; simpl; unfold is_uint64, UINT64_MOD; lia. Qed.

(** X9.  For an inner process that reaches the counters through the adders
    only, after [process] on a non-empty source [filtered_rows()] and
    [merged_rows()] are the sums, modulo [2^64], of what this call added,
    whatever they held before; and with the base row check [process]
    succeeds exactly when the inner process succeeded and the rows of the
    reader and writer it left balance with those sums. *)
Theorem process_counts_this_call flush io ops e :
  SchemaChange.source_is_empty e = false ->
  let r := SchemaChange.process flush
             (with_base_check (inner_with_ops io ops)) e in
  let rw := io (rowset_reader e, rowset_writer e) in
  filtered_rows (env_of r) = wrap64 (filtered_total ops)
  /\ merged_rows (env_of r) = wrap64 (merged_total ops)
  /\ rowset_reader (env_of r) = fst (snd rw)
  /\ rowset_writer (env_of r) = snd (snd rw)
  /\ (status_of r = OK <->
      fst rw = OK
      /\ wrap64 (Rowset.num_rows (RowsetReader.rowset (fst (snd rw)))
                 - RowsetReader.filtered_rows (fst (snd rw)))
         = wrap64 (RowsetWriter.num_rows (snd (snd rw))
                   + RowsetWriter.num_rows_filtered (snd (snd rw))
                   + merged_total ops + filtered_total ops)).
Proof.
  intros He r rw.
  set (e0 := {| rowset_reader := fst (snd rw);
                rowset_writer := snd (snd rw);
                self := fresh_counters |}).
  assert (Henv : env_of r = run_ops ops e0)
    by (subst r; rewrite (process_env_nonempty _ _ _ He); reflexivity).
  assert (H0 : counters_in_range e0)
    by (split; simpl; unfold is_uint64, UINT64_MOD; lia).
  pose proof (run_ops_in_range ops e0 H0) as [Rf Rm].
  destruct (run_ops_totals ops e0) as [Tf Tm].
  destruct (run_ops_io ops e0) as [Ir Iw].
  assert (Hf : filtered_rows (run_ops ops e0) = wrap64 (filtered_total ops)).
  { unfold filtered_rows. rewrite <- (wrap64_small _ Rf). exact Tf. }
  assert (Hm : merged_rows (run_ops ops e0) = wrap64 (merged_total ops)).
  { unfold merged_rows. rewrite <- (wrap64_small _ Rm). exact Tm. }
  rewrite Henv. split; [exact Hf|]. split; [exact Hm|].
  split; [exact Ir|]. split; [exact Iw|].
  assert (Hcheck : SchemaChange._check_row_nums (run_ops ops e0) = true <->
            wrap64 (Rowset.num_rows (RowsetReader.rowset (fst (snd rw)))
                    - RowsetReader.filtered_rows (fst (snd rw)))
            = wrap64 (RowsetWriter.num_rows (snd (snd rw))
                      + RowsetWriter.num_rows_filtered (snd (snd rw))
                      + merged_total ops + filtered_total ops)).
  { rewrite check_row_nums_true, row_nums_rhs_sum. unfold row_nums_lhs.
    rewrite Ir, Iw. unfold filtered_rows, merged_rows in Hf, Hm.
    rewrite Hf, Hm, wrap64_add_wrap_r, Z.add_shuffle0, wrap64_add_wrap_r.
    rewrite Z.add_shuffle0. reflexivity. }
  subst r.
  destruct (fst rw) as [|c m] eqn:Hi.
  - rewrite (process_inner_ok flush _ e He) by exact Hi.
    cbv zeta. unfold status_of. cbn [fst].
    change (snd (Strategy._inner_process
                   (with_base_check (inner_with_ops io ops))
                   (SchemaChange.reset_counters e)))
      with (run_ops ops e0).
    cbn [Strategy._check_row_nums with_base_check].
    destruct (SchemaChange._check_row_nums (run_ops ops e0)) eqn:Hc.
    + split; [intros _; split; [reflexivity | now apply Hcheck] | reflexivity].
    + split; [intros H; discriminate H|].
      intros [_ H]. apply Hcheck in H. discriminate H.
  - rewrite (process_inner_failed flush _ e c m He) by exact Hi.
    unfold status_of. cbn [fst]. split; [intros H | intros [H _]]; discriminate H.
Qed.

Lemma process_counts_this_call_witness :
  let e := sample_env 1000 0 0 0
             {| _filtered_rows := 77; _merged_rows := 88 |} in
  let r := SchemaChange.process flush_ok
             (with_base_check
                (inner_with_ops (sample_io 600 0)
                   [AddFiltered 300; AddFiltered 100])) e in
  SchemaChange.source_is_empty e = false
  /\ filtered_rows (env_of r) = 400
  /\ merged_rows (env_of r) = 0
  /\ status_of r = OK.
Proof.
  cbv zeta.
  destruct (process_counts_this_call flush_ok (sample_io 600 0)
              [AddFiltered 300; AddFiltered 100]
              (sample_env 1000 0 0 0
                 {| _filtered_rows := 77; _merged_rows := 88 |}) eq_refl)
    as (Hf & Hm & _ & _ & Hok).
  split; [reflexivity|]. split; [rewrite Hf; reflexivity|].
  split; [rewrite Hm; reflexivity|].
  apply Hok. split; reflexivity.
Defined.

(** ** The strategy a job runs *)

(** X10.  The object returned by [_get_sc_procedure] waives the row check
    exactly when one of the two flags is set and the changer has a [where]
    expression: the linked object always keeps the strict check of the base
    class.  Its [_inner_process] is the sort-based override when
    [sc_sorting] is set, the direct one when only [sc_directly] is, and the
    unsupported default of the base class otherwise. *)
Theorem selected_strategy_row_check
    {TExpr StorageEngine} (memory_limit : Z) (engine : StorageEngine)
    (sorting_inner directly_inner : BlockChanger TExpr -> Env -> Status * Env)
    (changer : BlockChanger TExpr) (sc_sorting sc_directly : bool) e :
  let vt :=
    strategy_of_procedure sorting_inner directly_inner
      (SchemaChangeJob._get_sc_procedure memory_limit engine changer
         sc_sorting sc_directly) in
  Strategy._check_row_nums vt e =
    ((sc_sorting || sc_directly) && has_where changer)
    || SchemaChange._check_row_nums e
  /\ Strategy._inner_process vt =
       (if sc_sorting then sorting_inner changer
        else if sc_directly then directly_inner changer
        else SchemaChange._inner_process).
Proof.
  destruct sc_sorting, sc_directly; simpl; split; reflexivity.
Qed.
